(** * LIPA-360: the record pipeline of [app.py] and the views of
    [visualizations.py], as a shallow embedding.

    A pandas DataFrame is modelled row-wise: an ordered list of column labels
    and a list of rows, each row a finite map from column label to cell.  The
    positional index is the position in the list (the code resets or ignores
    the index everywhere it matters).  Exceptions are values of an error
    monad; the clock, the date parser and the sorting routine of the library
    are parameters. *)

From Stdlib Require Import ZArith String Ascii List Lia Permutation Sorted.
From stdpp Require Import gmap strings list sorting pretty.

Open Scope string_scope.
Open Scope Z_scope.

(** ** Text helpers (Python [str] methods used by the code) *)

(** [s.startswith(p)] *)
Definition startswith (p s : string) : bool := String.prefix p s.

(** [needle in hay] *)
Fixpoint contains (needle hay : string) : bool :=
  String.prefix needle hay ||
  match hay with
  | EmptyString => false
  | String _ rest => contains needle rest
  end.

(** Case folding of one character; the model folds the letters A-Z only. *)
Definition lower_ascii (c : ascii) : ascii :=
  let n := N_of_ascii c in
  if ((65 <=? n) && (n <=? 90))%N then ascii_of_N (n + 32) else c.

Fixpoint lower (s : string) : string :=
  match s with
  | EmptyString => EmptyString
  | String c rest => String (lower_ascii c) (lower rest)
  end.

(** [s[:n]]: the first [n] characters, fewer when [s] is shorter. *)
Definition str_slice_to (n : nat) (s : string) : string := substring 0 n s.

(** Zero-padded decimal rendering, as produced by [%m], [%d], [%Y]. *)
Definition pad2 (n : Z) : string :=
  if n <? 10 then "0" +:+ pretty n else pretty n.

Definition pad4 (n : Z) : string :=
  if n <? 10 then "000" +:+ pretty n
  else if n <? 100 then "00" +:+ pretty n
  else if n <? 1000 then "0" +:+ pretty n
  else pretty n.

(** ** Timestamps *)

(** A naive timestamp: calendar fields and the second of the day. *)
Record Timestamp := mkTimestamp {
  year : Z;
  month : Z;
  day : Z;
  seconds : Z
}.

#[global] Instance Timestamp_eq_dec : EqDecision Timestamp.
Proof. solve_decision. Defined.

Definition _is_leap (y : Z) : bool :=
  (y mod 4 =? 0) && (negb (y mod 100 =? 0) || (y mod 400 =? 0)).

Definition _days_before_year (y : Z) : Z :=
  let y := y - 1 in y * 365 + y / 4 - y / 100 + y / 400.

Definition _DAYS_BEFORE_MONTH : list Z :=
  [-1; 0; 31; 59; 90; 120; 151; 181; 212; 243; 273; 304; 334].

Definition _days_before_month (y m : Z) : Z :=
  nth (Z.to_nat m) _DAYS_BEFORE_MONTH 0
  + (if (2 <? m) && _is_leap y then 1 else 0).

(** Proleptic Gregorian ordinal, day 1 being 0001-01-01 (a Monday). *)
Definition toordinal (t : Timestamp) : Z :=
  _days_before_year (year t) + _days_before_month (year t) (month t) + day t.

Definition total_seconds (t : Timestamp) : Z :=
  toordinal t * 86400 + seconds t.

(** [.date()]: the same day at midnight. *)
Definition date (t : Timestamp) : Timestamp :=
  {| year := year t; month := month t; day := day t; seconds := 0 |}.

(** [(a - b).days]: whole days of a time difference, rounded down. *)
Definition timedelta_days (a b : Timestamp) : Z :=
  (total_seconds a - total_seconds b) / 86400.

(** [strftime('%Y-%m-%d')] *)
Definition strftime_ymd (t : Timestamp) : string :=
  pad4 (year t) +:+ "-" +:+ pad2 (month t) +:+ "-" +:+ pad2 (day t).

(** ** Cells, rows and frames *)

Inductive cell :=
  | NaN                     (* missing value of a text or numeric column *)
  | NaT                     (* missing timestamp *)
  | PyNone                  (* Python None *)
  | Str (s : string)
  | Num (n : Z)
  | Stamp (t : Timestamp).

#[global] Instance cell_eq_dec : EqDecision cell.
Proof. solve_decision. Defined.

(** [pd.isna] / [pd.notna] on a scalar *)
Definition isna (c : cell) : bool :=
  match c with
  | NaN | NaT | PyNone => true
  | _ => false
  end.

Definition notna (c : cell) : bool := negb (isna c).

(** [str(x)], also what [astype(str)] does to each cell. *)
Definition py_str (c : cell) : string :=
  match c with
  | NaN => "nan"
  | NaT => "NaT"
  | PyNone => "None"
  | Str s => s
  | Num n => pretty n
  | Stamp t =>
      strftime_ymd t +:+ " " +:+ pad2 (seconds t / 3600) +:+ ":"
        +:+ pad2 (seconds t / 60 mod 60) +:+ ":" +:+ pad2 (seconds t mod 60)
  end.

Abbreviation Row := (gmap string cell).

Record DataFrame := mkDataFrame {
  columns : list string;
  rows : list Row
}.

(** [pd.DataFrame()] *)
Definition empty_frame : DataFrame := {| columns := []; rows := [] |}.

(** [df.empty]: some axis has length zero. *)
Definition empty (df : DataFrame) : bool :=
  match columns df, rows df with
  | [], _ | _, [] => true
  | _, _ => false
  end.

(** [len(df)] *)
Definition len (df : DataFrame) : Z := Z.of_nat (length (rows df)).

Definition has_column (col : string) (df : DataFrame) : bool :=
  bool_decide (col ∈ columns df).

(** [row.get(col)]: Python None when the label is absent. *)
Definition row_get (r : Row) (col : string) : cell :=
  default PyNone (r !! col).

(** The cell of a column the frame is known to have. *)
Definition at_col (col : string) (r : Row) : cell :=
  default NaN (r !! col).

(** [df[col] = f(row)], row by row: an existing column is overwritten in
    place, a new one is appended on the right. *)
Definition assign (col : string) (f : Row → cell) (df : DataFrame) : DataFrame :=
  {| columns := if has_column col df then columns df else columns df ++ [col];
     rows := map (λ r, <[col := f r]> r) (rows df) |}.

(** [df[mask]] with the mask computed row by row. *)
Definition where_ (p : Row → bool) (df : DataFrame) : DataFrame :=
  {| columns := columns df; rows := List.filter p (rows df) |}.

(** ** Exceptions *)

Inductive PyException :=
  | ReadError (msg : string)               (* raised by [pd.read_excel] *)
  | KeyError (key : string)                (* [df[col]], label absent *)
  | NotInIndex (missing : list string).    (* [df[cols]], labels absent *)

Definition Exc (A : Type) : Type := PyException + A.

Definition raise {A} (e : PyException) : Exc A := inl e.
Definition ret {A} (a : A) : Exc A := inr a.
Definition bind {A B} (m : Exc A) (k : A → Exc B) : Exc B :=
  match m with
  | inl e => inl e
  | inr a => k a
  end.

Notation "'do' x <- m ; k" := (bind m (λ x, k))
  (at level 10, x name, m at level 100, k at level 200).

(** [df[col]] read for its effect: raises when the label is absent. *)
Definition getitem (col : string) (df : DataFrame) : Exc unit :=
  if has_column col df then ret tt else raise (KeyError col).

(** [df[cols]]: projection on a list of labels, in that order. *)
Definition project_row (cols : list string) (r : Row) : Row :=
  list_to_map (omap (λ c, (λ v, (c, v)) <$> r !! c) cols).

Definition getitems (cols : list string) (df : DataFrame) : Exc DataFrame :=
  match List.filter (λ c, negb (has_column c df)) cols with
  | [] => ret {| columns := cols; rows := map (project_row cols) (rows df) |}
  | missing => raise (NotInIndex missing)
  end.

(** ** The library's sort

    [sort_values(by=..., ascending=False)] is called with the default
    [kind='quicksort'], which orders the rows by decreasing key and leaves
    the relative order of rows with equal keys to the implementation.  The
    model takes the routine as an interface with exactly that contract. *)

Definition decreasing {A} (key : A → Z) (l : list A) : Prop :=
  StronglySorted (λ x y, key y <= key x) l.

Class SortValues := {
  sort_values_desc : ∀ {A : Type}, (A → Z) → list A → list A;
  sort_values_perm : ∀ A (key : A → Z) (l : list A),
    Permutation l (sort_values_desc key l);
  sort_values_decreasing : ∀ A (key : A → Z) (l : list A),
    decreasing key (sort_values_desc key l)
}.

(** Two routines that meet the contract, both by insertion.  [x] is put in
    front of the first [y] with [front (key y) (key x)]. *)
Fixpoint insert_desc {A} (front : Z → Z → bool) (key : A → Z)
    (x : A) (l : list A) : list A :=
  match l with
  | [] => [x]
  | y :: l' =>
      if front (key y) (key x) then x :: y :: l'
      else y :: insert_desc front key x l'
  end.

(** Rows with equal keys stay in input order. *)
Definition stable_sort_desc {A} (key : A → Z) (l : list A) : list A :=
  foldr (insert_desc Z.leb key) [] l.

(** Rows with equal keys come out in reverse input order. *)
Definition reversing_sort_desc {A} (key : A → Z) (l : list A) : list A :=
  foldr (insert_desc Z.ltb key) [] l.

(** ** [process_data] *)

(** What the upload holds: [pd.read_excel(..., dtype=str)] either raises or
    yields a frame whose cells are text or missing. *)
Inductive UploadedFile :=
  | Unreadable (msg : string)
  | Workbook (df : DataFrame).

Definition read_excel (f : UploadedFile) : Exc DataFrame :=
  match f with
  | Unreadable msg => raise (ReadError msg)
  | Workbook df => ret df
  end.

Definition required_cols : list string :=
  [ "LIPA EX33 FZ / ExtDlvID"; "LIPA Created On"; "Day";
    "LIPA No. / Delivery"; "Process status"; "Reason code desc.";
    "Customer Ref. Ord.No."; "Material number"; "Material Description";
    "Delivery Quantity"; "Model series" ].

(** [Series.fillna(v)] and [Series.replace(old, new)] on one cell *)
Definition fillna (v : cell) (c : cell) : cell := if isna c then v else c.

Definition replace (old new : cell) (c : cell) : cell :=
  if bool_decide (c = old) then new else c.

(** [series > k]; a missing value compares false. *)
Definition gt (k : Z) (c : cell) : bool :=
  match c with
  | Num n => k <? n
  | _ => false
  end.

(** [series == v] *)
Definition eq_cell (v : cell) (c : cell) : bool := bool_decide (c = v).

(** The value of a Python 3-tuple slot returned by [process_data]. *)
Inductive PyValue :=
  | Frame (df : DataFrame)
  | Message (e : PyException)     (* [str(e)] *)
  | NoneValue.

Section Pipeline.

Context {sorter : SortValues}.

(** [pd.to_datetime(text, errors='coerce')] on one cell of text: the parsed
    timestamp, or nothing when the text does not parse. *)
Variable to_datetime : string → option Timestamp.

(** [datetime.today()] at the time of the call. *)
Variable today : Timestamp.

Definition coerce_datetime (c : cell) : cell :=
  match c with
  | Str s =>
      match to_datetime s with
      | Some t => Stamp t
      | None => NaT
      end
  | Stamp t => Stamp t
  | _ => NaT
  end.

(** [(df['Today'] - df['LIPA Created On']).dt.days] *)
Definition days_between (r : Row) : cell :=
  match at_col "Today" r, at_col "LIPA Created On" r with
  | Stamp a, Stamp b => Num (timedelta_days a b)
  | _, _ => NaN
  end.

Definition clean_lipa (row : Row) : cell :=
  if notna (row_get row "Combined Status")
     && contains "GSS Classic" (py_str (row_get row "Combined Status"))
  then Str "GSS classic"
  else if notna (row_get row "LIPA EX33 FZ / ExtDlvID")
       then Str (py_str (row_get row "LIPA EX33 FZ / ExtDlvID"))
       else PyNone.

(** [.astype(str).str.startswith('7').map({True: 'USA', False: 'Germany'})] *)
Definition region_of (c : cell) : cell :=
  if startswith "7" (py_str c) then Str "USA" else Str "Germany".

(** Lines 55-67: every derived column, before the aging filter. *)
Definition classify (df : DataFrame) : Exc DataFrame :=
  do _ <- getitem "LIPA Created On" df;
  let df := assign "LIPA Created On"
              (λ r, coerce_datetime (at_col "LIPA Created On" r)) df in
  let df := assign "Today" (λ _, Stamp (date today)) df in
  let df := assign "Day" days_between df in
  let df := assign "LIPA EX33 FZ / ExtDlvID" clean_lipa df in
  let df := assign "Region"
              (λ r, region_of (at_col "LIPA EX33 FZ / ExtDlvID" r)) df in
  do _ <- getitem "Reason code desc." df;
  let df := assign "Reason code desc."
              (λ r, replace (Str "") (Str "GSS classic")
                      (fillna (Str "") (at_col "Reason code desc." r))) df in
  let df := assign "LIPA EX33 FZ / ExtDlvID"
              (λ r, if eq_cell (Str "GSS classic") (at_col "Reason code desc." r)
                    then Str "" else at_col "LIPA EX33 FZ / ExtDlvID" r) df in
  ret df.

(** Line 68: [df[df['Day'] > 10]] *)
Definition retain (df : DataFrame) : DataFrame :=
  where_ (λ r, gt 10 (at_col "Day" r)) df.

(** The sort key of a row; rows that reach the sort carry a number. *)
Definition day_key (r : Row) : Z :=
  match at_col "Day" r with
  | Num n => n
  | _ => 0
  end.

(** [region_df.insert(0, 'Sr No.', range(1, len(region_df) + 1))] *)
Definition insert_sr_no (df : DataFrame) : DataFrame :=
  {| columns := "Sr No." :: columns df;
     rows := imap (λ i r, <["Sr No." := Num (Z.of_nat i + 1)]> r) (rows df) |}.

Definition prepare_df (region_df : DataFrame) : Exc DataFrame :=
  do region_df <- getitems required_cols region_df;
  let region_df :=
    {| columns := columns region_df;
       rows := sort_values_desc day_key (rows region_df) |} in
  ret (insert_sr_no region_df).

(** ['USA' in df['Region'].values] *)
Definition region_present (name : string) (df : DataFrame) : bool :=
  existsb (λ r, eq_cell (Str name) (at_col "Region" r)) (rows df).

(** [df[df['Region'] == name]] *)
Definition region_rows (name : string) (df : DataFrame) : DataFrame :=
  where_ (λ r, eq_cell (Str name) (at_col "Region" r)) df.

Definition partition (name : string) (df : DataFrame) : Exc DataFrame :=
  if region_present name df then prepare_df (region_rows name df)
  else ret empty_frame.

(** The body of the [try] block. *)
Definition process_frames (uploaded_file : UploadedFile)
  : Exc (DataFrame * DataFrame) :=
  do df <- read_excel uploaded_file;
  do df <- classify df;
  let df := retain df in
  do usa_df <- partition "USA" df;
  do germany_df <- partition "Germany" df;
  ret (usa_df, germany_df).

Definition process_data (uploaded_file : UploadedFile)
  : bool * PyValue * PyValue :=
  match process_frames uploaded_file with
  | inr (usa_df, germany_df) => (true, Frame usa_df, Frame germany_df)
  | inl e => (false, Message e, NoneValue)
  end.

End Pipeline.

(** ** [visualizations.py]

    A view receives the caller's frame object.  Its model returns what the
    view hands to the chart or table widget, together with the state of the
    caller's frame after the call: the views that write a column into [df]
    change it, the ones that work on a copy do not.  The views are called on
    prepared partitions, which carry every column they read. *)

(** [len(df[mask])] *)
Definition count_where (p : Row → bool) (l : list Row) : Z :=
  Z.of_nat (length (List.filter p l)).

(** [Series.unique()]: distinct values in order of first appearance. *)
Fixpoint unique {A} `{EqDecision A} (l : list A) : list A :=
  match l with
  | [] => []
  | x :: l' => x :: List.filter (λ y, negb (bool_decide (y = x))) (unique l')
  end.

(** Group keys come out sorted in increasing order. *)
Fixpoint insert_asc {A} (leb : A → A → bool) (x : A) (l : list A) : list A :=
  match l with
  | [] => [x]
  | y :: l' => if leb x y then x :: y :: l' else y :: insert_asc leb x l'
  end.

Definition sorted_keys {A} `{EqDecision A} (leb : A → A → bool)
    (l : list A) : list A :=
  foldr (insert_asc leb) [] (unique l).

(** The text of a group key; rows whose key is missing are in no group. *)
Definition key_text (c : cell) : option string :=
  if isna c then None else Some (py_str c).

Definition has_key (col : string) (k : string) (r : Row) : bool :=
  bool_decide (key_text (at_col col r) = Some k).

(** [month], [year] of the [.dt] accessor; missing for a missing timestamp. *)
Definition dt_field (f : Timestamp → Z) (c : cell) : option Z :=
  match c with
  | Stamp t => Some (f t)
  | _ => None
  end.

(** [.str.contains('closed|completed', case=False, na=False)] *)
Definition contains_closed_completed (s : string) : bool :=
  contains "closed" (lower s) || contains "completed" (lower s).

(** [pd.cut(x, bins, labels, right=False)] with the last edge infinite:
    [x] gets the label of the interval [lo, hi) it lies in. *)
Fixpoint cut (bins : list Z) (labels : list string) (x : Z) : option string :=
  match bins, labels with
  | lo :: bins', lab :: labels' =>
      if x <? lo then None
      else match bins' with
           | [] => Some lab
           | hi :: _ => if x <? hi then Some lab else cut bins' labels' x
           end
  | _, _ => None
  end.

Definition bins : list Z := [0; 30; 60; 90].

Definition labels : list string :=
  ["0-30 days"; "31-60 days"; "61-90 days"; ">90 days"].

Definition age_bucket (c : cell) : cell :=
  match c with
  | Num n => match cut bins labels n with
             | Some lab => Str lab
             | None => NaN
             end
  | _ => NaN
  end.

(** Calendar date of an ordinal. *)
Definition _DAYS_IN_MONTH : list Z :=
  [-1; 31; 28; 31; 30; 31; 30; 31; 31; 30; 31; 30; 31].

Definition _ord2ymd (n : Z) : Z * Z * Z :=
  let n := n - 1 in
  let n400 := n / 146097 in let n := n mod 146097 in
  let y := n400 * 400 + 1 in
  let n100 := n / 36524 in let n := n mod 36524 in
  let n4 := n / 1461 in let n := n mod 1461 in
  let n1 := n / 365 in let n := n mod 365 in
  let y := y + n100 * 100 + n4 * 4 + n1 in
  if (n1 =? 4) || (n100 =? 4) then (y - 1, 12, 31)
  else
    let leapyear := (n1 =? 3) && (negb (n4 =? 24) || (n100 =? 3)) in
    let m := (n + 50) / 32 in
    let preceding := nth (Z.to_nat m) _DAYS_BEFORE_MONTH 0
                     + (if (2 <? m) && leapyear then 1 else 0) in
    if n <? preceding then
      let m := m - 1 in
      let preceding := preceding
                       - (nth (Z.to_nat m) _DAYS_IN_MONTH 0
                          + (if (m =? 2) && leapyear then 1 else 0)) in
      (y, m, n - preceding + 1)
    else (y, m, n - preceding + 1).

Definition fromordinal (n : Z) : Timestamp :=
  let '(y, m, d) := _ord2ymd n in
  {| year := y; month := m; day := d; seconds := 0 |}.

(** [.dt.to_period('W').dt.start_time]: the Monday of the timestamp's week. *)
Definition week_start (c : cell) : cell :=
  match c with
  | Stamp t => Stamp (fromordinal (toordinal t - (toordinal t + 6) mod 7))
  | _ => NaT
  end.

Record KpiCards := mkKpiCards {
  total_lipas : Z;
  lipas_30_days : Z;
  lipas_60_days : Z;
  closed_this_month : Z;
  (* [df['Day'].mean()], kept as the sum and the number of values *)
  avg_aging_days : Z * Z
}.

Section Views.

Context {sorter : SortValues}.

(** [datetime.now()] at the time of the call. *)
Variable now : Timestamp.

Definition create_kpi_cards (df : DataFrame) : option KpiCards * DataFrame :=
  if empty df then (None, df) else
  let total_lipas := len df in
  let lipas_30_days := count_where (λ r, gt 30 (at_col "Day" r)) (rows df) in
  let lipas_60_days := count_where (λ r, gt 60 (at_col "Day" r)) (rows df) in
  let current_month := month now in
  let current_year := year now in
  let this_month :=
    where_ (λ r, bool_decide
                   (dt_field month (at_col "LIPA Created On" r)
                    = Some current_month)) df in
  let closed_this_month :=
    count_where (λ r, contains_closed_completed
                        (py_str (at_col "Process status" r)))
                (rows this_month) in
  let days := omap (λ r, match at_col "Day" r with
                         | Num n => Some n
                         | _ => None
                         end) (rows df) in
  (Some {| total_lipas := total_lipas;
           lipas_30_days := lipas_30_days;
           lipas_60_days := lipas_60_days;
           closed_this_month := closed_this_month;
           avg_aging_days := (foldr Z.add 0 days, Z.of_nat (length days)) |},
   df).

(** One row of the weekly table: week, total, over 30 days, over 60 days. *)
Definition create_aging_trend (df : DataFrame)
  : option (list (Timestamp * Z * Z * Z)) * DataFrame :=
  if empty df then (None, df) else
  let df_weekly :=
    assign "Week" (λ r, week_start (at_col "LIPA Created On" r)) df in
  let week_of r := dt_field toordinal (at_col "Week" r) in
  let weeks := sorted_keys Z.leb (omap week_of (rows df_weekly)) in
  let weekly_counts :=
    map (λ w,
           let g := List.filter (λ r, bool_decide (week_of r = Some w))
                                (rows df_weekly) in
           (fromordinal w,
            count_where (λ r, notna (at_col "LIPA No. / Delivery" r)) g,
            count_where (λ r, gt 30 (at_col "Day" r)) g,
            count_where (λ r, gt 60 (at_col "Day" r)) g))
        weeks in
  (Some weekly_counts, df).

(** [observed] is the [groupby] option of that name: with [false] every
    bucket label is paired with every reason present, with [true] only the
    pairs that occur are listed.  The code leaves it at the library's
    default, which differs between library versions. *)
Variable observed : bool.

Definition create_aging_distribution (df : DataFrame)
  : option (list (string * string * Z)) * DataFrame :=
  if empty df then (None, df) else
  let df := assign "Age Bucket" (λ r, age_bucket (at_col "Day" r)) df in
  let grouped :=
    List.filter (λ r, notna (at_col "Age Bucket" r)
                      && notna (at_col "Reason code desc." r)) (rows df) in
  let reasons :=
    sorted_keys String.leb
      (omap (λ r, key_text (at_col "Reason code desc." r)) grouped) in
  let age_reason_counts :=
    flat_map (λ b,
      flat_map (λ c,
        let n := count_where (λ r, has_key "Age Bucket" b r
                                   && has_key "Reason code desc." c r)
                             (rows df) in
        if observed && (n =? 0) then [] else [(b, c, n)])
        reasons)
      labels in
  (Some age_reason_counts, df).

(** [Series.value_counts()]: one count per distinct value, by decreasing
    count. *)
Definition value_counts (col : string) (df : DataFrame) : list (string * Z) :=
  let keys := unique (omap (λ r, key_text (at_col col r)) (rows df)) in
  sort_values_desc snd
    (map (λ k, (k, count_where (has_key col k) (rows df))) keys).

Definition create_reason_distribution (df : DataFrame)
  : option (list (string * Z)) * DataFrame :=
  if empty df then (None, df) else
  (Some (value_counts "Reason code desc." df), df).

Definition create_status_donut (df : DataFrame)
  : option (list (string * Z)) * DataFrame :=
  if empty df then (None, df) else
  (Some (value_counts "Process status" df), df).

(** [df.nlargest(n, 'Day')]: the [n] rows of largest age, earlier rows
    first among equal ages; rows without an age are left out. *)
Definition nlargest (n : nat) (df : DataFrame) : DataFrame :=
  {| columns := columns df;
     rows := take n (stable_sort_desc day_key
                       (List.filter (λ r, notna (at_col "Day" r)) (rows df))) |}.

Definition top_aging_cols : list string :=
  [ "LIPA No. / Delivery"; "LIPA Created On"; "Day";
    "Material number"; "Customer Ref. Ord.No."; "Reason code desc." ].

Definition create_top_aging_table (df : DataFrame)
  : option DataFrame * DataFrame :=
  if empty df then (None, df) else
  let top := nlargest 10 df in
  let top_aging := {| columns := top_aging_cols;
                      rows := map (project_row top_aging_cols) (rows top) |} in
  let top_aging :=
    assign "LIPA Created On"
      (λ r, match at_col "LIPA Created On" r with
            | Stamp t => Str (strftime_ymd t)
            | _ => NaN
            end) top_aging in
  (Some top_aging, df).

(** One row of the matrix: the model and its count for every reason. *)
Definition create_heatmap (df : DataFrame)
  : option (list (string * list (string * Z))) * DataFrame :=
  if empty df then (None, df) else
  let df := assign "Model"
              (λ r, Str (str_slice_to 4 (py_str (at_col "Material number" r))))
              df in
  let grouped :=
    List.filter (λ r, notna (at_col "Reason code desc." r)) (rows df) in
  let models :=
    sorted_keys String.leb (omap (λ r, key_text (at_col "Model" r)) grouped) in
  let reasons :=
    sorted_keys String.leb
      (omap (λ r, key_text (at_col "Reason code desc." r)) grouped) in
  let heatmap_data :=
    map (λ m,
           (m, map (λ c,
                      (c, count_where
                            (λ r, has_key "Model" m r
                                  && has_key "Reason code desc." c r
                                  && notna (at_col "LIPA No. / Delivery" r))
                            (rows df)))
                   reasons))
        models in
  (Some heatmap_data, df).

(** The page section of one region ([app.py], lines 151-188): the seven
    views in order on the same frame object, then the raw-data table and
    the download link built from that object. *)
Record RegionPage := mkRegionPage {
  kpi_cards : option KpiCards;
  aging_trend : option (list (Timestamp * Z * Z * Z));
  aging_distribution : option (list (string * string * Z));
  reason_distribution : option (list (string * Z));
  status_donut : option (list (string * Z));
  top_aging_table : option DataFrame;
  heatmap : option (list (string * list (string * Z)));
  raw_data : DataFrame
}.

Definition render_region (region_df : DataFrame) : option RegionPage :=
  if empty region_df then None else
  let '(v1, region_df) := create_kpi_cards region_df in
  let '(v2, region_df) := create_aging_trend region_df in
  let '(v3, region_df) := create_aging_distribution region_df in
  let '(v4, region_df) := create_reason_distribution region_df in
  let '(v5, region_df) := create_status_donut region_df in
  let '(v6, region_df) := create_top_aging_table region_df in
  let '(v7, region_df) := create_heatmap region_df in
  Some {| kpi_cards := v1; aging_trend := v2; aging_distribution := v3;
          reason_distribution := v4; status_donut := v5;
          top_aging_table := v6; heatmap := v7;
          raw_data := region_df |}.

End Views.

(** ** Vocabulary of the statements *)

Section ClassifiedRow.

Context (to_datetime : string → option Timestamp) (today : Timestamp).

Definition reason_of (r : Row) : cell :=
  replace (Str "") (Str "GSS classic")
    (fillna (Str "") (at_col "Reason code desc." r)).

Definition created_of (r : Row) : cell :=
  coerce_datetime to_datetime (at_col "LIPA Created On" r).

Definition age_of (r : Row) : cell :=
  match created_of r with
  | Stamp b => Num (timedelta_days (date today) b)
  | _ => NaN
  end.

Definition ext_id_of (r : Row) : cell :=
  if eq_cell (Str "GSS classic") (reason_of r) then Str "" else clean_lipa r.

(** The row written by lines 55-67, column by column. *)
Definition classify_row (r : Row) : Row :=
  <["LIPA EX33 FZ / ExtDlvID" := ext_id_of r]>
    (<["Reason code desc." := reason_of r]>
       (<["Region" := region_of (clean_lipa r)]>
          (<["LIPA EX33 FZ / ExtDlvID" := clean_lipa r]>
             (<["Day" := age_of r]>
                (<["Today" := Stamp (date today)]>
                   (<["LIPA Created On" := created_of r]> r)))))).

End ClassifiedRow.

(** The numbered row without its number. *)
Definition strip_sr_no (r : Row) : Row := delete "Sr No." r.



(** The columns of the workbook that the run reads by label and cannot do
    without. *)
Definition source_cols : list string :=
  [ "LIPA Created On"; "Reason code desc."; "LIPA No. / Delivery";
    "Process status"; "Customer Ref. Ord.No."; "Material number";
    "Material Description"; "Delivery Quantity"; "Model series" ].

Definition well_formed (df : DataFrame) : Prop :=
  Forall (λ c, has_column c df = true) source_cols.

#[global] Instance well_formed_dec df : Decision (well_formed df).
Proof. unfold well_formed. apply _. Defined.




(** "Closed this month" as the comment in the code and the variable
    [current_year] announce it: created in the current month of the current
    year, status containing "closed" or "completed" in any letter case. *)
Definition closed_this_month_spec (now : Timestamp) (df : DataFrame) : Z :=
  count_where
    (λ r, bool_decide (dt_field month (at_col "LIPA Created On" r)
                       = Some (month now))
          && bool_decide (dt_field year (at_col "LIPA Created On" r)
                          = Some (year now))
          && contains_closed_completed (py_str (at_col "Process status" r)))
    (rows df).

(** The columns of a partition that the run copies from the workbook without
    writing them. *)
Definition passthrough_cols : list string :=
  [ "LIPA No. / Delivery"; "Process status"; "Customer Ref. Ord.No.";
    "Material number"; "Material Description"; "Delivery Quantity";
    "Model series" ].








(** Equality of frames, exceptions and returned values is decidable, so a
    closed equation between them is settled by evaluating the decision. *)
#[global] Instance DataFrame_eq_dec : EqDecision DataFrame.
Proof. solve_decision. Defined.

#[global] Instance PyException_eq_dec : EqDecision PyException.
Proof. solve_decision. Defined.

#[global] Instance PyValue_eq_dec : EqDecision PyValue.
Proof. solve_decision. Defined.

Ltac evaluate := apply (bool_decide_unpack _); vm_compute; exact I.

(** ** Two sort routines that meet the contract *)

Section InsertDesc.

Context {A : Type} (front : Z → Z → bool) (key : A → Z).
Hypothesis front_true : ∀ a b, front a b = true → a <= b.
Hypothesis front_false : ∀ a b, front a b = false → b <= a.

Lemma insert_desc_perm x l : Permutation (x :: l) (insert_desc front key x l).
Proof.
  induction l as [|y l IH]; simpl; [done|].
  destruct (front (key y) (key x)); [done|].
  rewrite <- IH. apply perm_swap.
Qed.

Lemma insert_desc_decreasing x l :
  decreasing key l → decreasing key (insert_desc front key x l).
Proof.
  unfold decreasing. induction l as [|y l IH]; simpl; intros Hs.
  - repeat constructor.
  - apply StronglySorted_inv in Hs as [Hl Hy].
    destruct (front (key y) (key x)) eqn:E.
    + apply front_true in E. constructor; [by constructor|].
      constructor; [lia|].
      eapply Forall_impl; [exact Hy|]. simpl. lia.
    + apply front_false in E. constructor; [by apply IH|].
      rewrite <- insert_desc_perm. by constructor.
Qed.

Lemma foldr_insert_desc_perm l :
  Permutation l (foldr (insert_desc front key) [] l).
Proof.
  induction l as [|x l IH]; simpl; [done|].
  rewrite <- insert_desc_perm. by constructor.
Qed.

Lemma foldr_insert_desc_decreasing l :
  decreasing key (foldr (insert_desc front key) [] l).
Proof.
  induction l as [|x l IH]; simpl.
  - constructor.
  - by apply insert_desc_decreasing.
Qed.

End InsertDesc.

Definition stable_sort : SortValues.
Proof.
  refine {| sort_values_desc := @stable_sort_desc |}.
  - intros. apply foldr_insert_desc_perm.
  - intros. apply foldr_insert_desc_decreasing; intros a b; lia.
Defined.

Definition reversing_sort : SortValues.
Proof.
  refine {| sort_values_desc := @reversing_sort_desc |}.
  - intros. apply foldr_insert_desc_perm.
  - intros. apply foldr_insert_desc_decreasing; intros a b; lia.
Defined.

(** ** A sample parser and a sample workbook, for the concrete instances *)

Definition digit_of (c : ascii) : option Z :=
  let n := N_of_ascii c in
  if ((48 <=? n) && (n <=? 57))%N then Some (Z.of_N n - 48) else None.

Fixpoint number (acc : Z) (s : string) : option Z :=
  match s with
  | EmptyString => Some acc
  | String c rest =>
      match digit_of c with
      | Some d => number (acc * 10 + d) rest
      | None => None
      end
  end.

(** Accepts exactly the calendar dates written [YYYY-MM-DD]. *)
Definition iso_date (s : string) : option Timestamp :=
  if bool_decide (String.length s = 10%nat)
     && bool_decide (substring 4 1 s = "-")
     && bool_decide (substring 7 1 s = "-")
  then
    y ← number 0 (substring 0 4 s);
    m ← number 0 (substring 5 2 s);
    d ← number 0 (substring 8 2 s);
    if (1 <=? m) && (m <=? 12) && (1 <=? d)
       && (d <=? nth (Z.to_nat m) _DAYS_IN_MONTH 0
                 + (if (m =? 2) && _is_leap y then 1 else 0))
    then Some {| year := y; month := m; day := d; seconds := 0 |}
    else None
  else None.

Definition sample_columns : list string :=
  [ "LIPA No. / Delivery"; "LIPA Created On"; "Combined Status";
    "LIPA EX33 FZ / ExtDlvID"; "Reason code desc."; "Process status";
    "Customer Ref. Ord.No."; "Material number"; "Material Description";
    "Delivery Quantity"; "Model series" ].

Definition sample_row (delivery created combined ext reason status material : cell)
  : Row :=
  list_to_map
    [ ("LIPA No. / Delivery", delivery); ("LIPA Created On", created);
      ("Combined Status", combined); ("LIPA EX33 FZ / ExtDlvID", ext);
      ("Reason code desc.", reason); ("Process status", status);
      ("Customer Ref. Ord.No.", Str "PO-1"); ("Material number", material);
      ("Material Description", Str "Cab"); ("Delivery Quantity", Str "1");
      ("Model series", Str "S1") ].

Definition sample_workbook : DataFrame :=
  {| columns := sample_columns;
     rows :=
       [ sample_row (Str "D1") (Str "2026-10-20") (Str "In process")
           (Str "7001234") (Str "Missing part") (Str "Open") (Str "A96012345");
         sample_row (Str "D2") (Str "2025-11-20") (Str "Plant GSS Classic line")
           (Str "7009999") NaN (Str "Open") (Str "B12");
         sample_row (Str "D3") (Str "not a date") NaN
           NaN (Str "Customs") (Str "Open") NaN;
         sample_row (Str "D4") (Str "2026-10-25") NaN
           (Str "8123") (Str "Customs") (Str "Open") (Str "A96099999");
         sample_row (Str "D5") (Str "2025-11-20") NaN
           (Str "7555") (Str "Customs") (Str "Closed") (Str "A96077777");
         sample_row (Str "D6") (Str "2026-10-05") NaN
           (Str "4711") (Str "Missing part") (Str "Open") (Str "C5000001");
         sample_row (Str "D7") (Str "2026-09-01") (Str "In process")
           (Str "7100") (Str "") (Str "Open") (Str "A96") ] |}.

(** The day of the sample run: 2026-11-04, early afternoon. *)
Definition sample_today : Timestamp :=
  {| year := 2026; month := 11; day := 4; seconds := 47000 |}.

Definition sample_classified : DataFrame :=
  match classify iso_date sample_today sample_workbook with
  | inr df => df
  | inl _ => empty_frame
  end.


(** A workbook with two USA records of the same age, and its run with the
    sort that emits equal keys in reverse input order. *)
Definition tied_workbook : DataFrame :=
  {| columns := sample_columns;
     rows :=
       [ sample_row (Str "A") (Str "2026-10-15") NaN
           (Str "7001") (Str "Customs") (Str "Open") (Str "A96000001");
         sample_row (Str "B") (Str "2026-10-15") NaN
           (Str "7002") (Str "Customs") (Str "Open") (Str "A96000002");
         sample_row (Str "C") (Str "2026-09-01") NaN
           (Str "7003") (Str "Customs") (Str "Open") (Str "A96000003") ] |}.


Definition tied_usa : DataFrame :=
  match process_frames (sorter:=reversing_sort) iso_date sample_today
          (Workbook tied_workbook) with
  | inr (usa_df, _) => usa_df
  | inl _ => empty_frame
  end.

(** The sample run, with the sort that keeps ties in input order. *)
Definition sample_usa : DataFrame :=
  match process_frames (sorter:=stable_sort) iso_date sample_today
          (Workbook sample_workbook) with
  | inr (usa_df, _) => usa_df
  | inl _ => empty_frame
  end.

Definition sample_germany : DataFrame :=
  match process_frames (sorter:=stable_sort) iso_date sample_today
          (Workbook sample_workbook) with
  | inr (_, germany_df) => germany_df
  | inl _ => empty_frame
  end.

(** * Properties *)

(** ** Cells of a row after column writes *)

Lemma at_col_insert_eq c v (r : Row) : at_col c (<[c := v]> r) = v.
Proof. unfold at_col. by rewrite lookup_insert_eq. Qed.

Lemma at_col_insert_ne c c' v (r : Row) :
  c' ≠ c → at_col c (<[c' := v]> r) = at_col c r.
Proof. intros. unfold at_col. by rewrite lookup_insert_ne. Qed.

Lemma row_get_insert_ne c c' v (r : Row) :
  c' ≠ c → row_get (<[c' := v]> r) c = row_get r c.
Proof. intros. unfold row_get. by rewrite lookup_insert_ne. Qed.

Lemma has_column_assign_same c f df : has_column c (assign c f df) = true.
Proof.
  unfold has_column at 1, assign; simpl.
  destruct (has_column c df) eqn:E; apply bool_decide_eq_true.
  - by apply bool_decide_eq_true in E.
  - apply elem_of_app. right. by apply list_elem_of_singleton.
Qed.

Lemma has_column_assign c c' f df :
  has_column c df = true → has_column c (assign c' f df) = true.
Proof.
  unfold has_column, assign; simpl. intros E.
  apply bool_decide_eq_true in E. apply bool_decide_eq_true.
  destruct (has_column c' df); [done|].
  apply elem_of_app. by left.
Qed.

Lemma rows_assign c f df : rows (assign c f df) = map (λ r, <[c := f r]> r) (rows df).
Proof. done. Qed.

(** ** What [classify] does to one row *)

Section Classify.

Context (to_datetime : string → option Timestamp) (today : Timestamp).

Lemma classify_rows df :
  has_column "LIPA Created On" df = true →
  has_column "Reason code desc." df = true →
  ∃ df', classify to_datetime today df = inr df'
         ∧ rows df' = map (classify_row to_datetime today) (rows df)
         ∧ has_column "Day" df' = true
         ∧ has_column "LIPA EX33 FZ / ExtDlvID" df' = true
         ∧ ∀ c, has_column c df = true → has_column c df' = true.
Proof.
  intros Hc Hr. unfold classify, getitem. rewrite Hc. simpl.
  match goal with
  | |- context [has_column "Reason code desc." ?d] =>
      replace (has_column "Reason code desc." d) with true
        by (symmetry; repeat apply has_column_assign; exact Hr)
  end.
  simpl. eexists; split; [reflexivity|]. split; [|split; [|split]].
  - rewrite !rows_assign, !map_map. apply map_ext. intros r.
    unfold classify_row, ext_id_of, reason_of, age_of, created_of,
      days_between, clean_lipa.
    repeat (rewrite ?at_col_insert_eq, ?at_col_insert_ne, ?row_get_insert_ne
              by done).
    reflexivity.
  - do 4 apply has_column_assign. apply has_column_assign_same.
  - apply has_column_assign_same.
  - intros c Hin. by repeat apply has_column_assign.
Qed.

End Classify.

Lemma has_column_assign_ne c c' f df :
  c' ≠ c → has_column c (assign c' f df) = has_column c df.
Proof.
  intros Hne. unfold has_column at 1, assign; simpl.
  destruct (has_column c' df); [done|].
  unfold has_column. apply bool_decide_ext.
  rewrite elem_of_app, list_elem_of_singleton.
  split; [intros [?|?]; [done|congruence] | by left].
Qed.

Lemma lookup_map {A B} (f : A → B) (l : list A) (i : nat) :
  map f l !! i = f <$> l !! i.
Proof.
  revert i. induction l as [|x l IH]; intros [|i]; simpl; auto.
Qed.

Lemma elem_of_filter {A} (p : A → bool) (l : list A) (x : A) :
  x ∈ List.filter p l ↔ x ∈ l ∧ p x = true.
Proof. rewrite !list_elem_of_In. apply filter_In. Qed.

Section ClassifyFacts.

Context (to_datetime : string → option Timestamp) (today : Timestamp).

Local Abbreviation classify := (classify to_datetime today).
Local Abbreviation classify_row := (classify_row to_datetime today).

Lemma classify_columns df df' :
  classify df = inr df' →
  has_column "LIPA Created On" df = true
  ∧ has_column "Reason code desc." df = true.
Proof.
  unfold classify, getitem.
  destruct (has_column "LIPA Created On" df) eqn:Hc; [|done]. simpl.
  rewrite !has_column_assign_ne by done.
  destruct (has_column "Reason code desc." df) eqn:Hr; [|done]. done.
Qed.

Lemma classify_inr df df' :
  classify df = inr df' → rows df' = map classify_row (rows df).
Proof.
  intros Hd. destruct (classify_columns _ _ Hd) as [Hc Hr].
  destruct (classify_rows to_datetime today df Hc Hr) as (d & Hd' & Hrows & _).
  congruence.
Qed.

Lemma classify_lookup df df' i r :
  classify df = inr df' → rows df !! i = Some r →
  rows df' !! i = Some (classify_row r).
Proof.
  intros Hd Hi. rewrite (classify_inr _ _ Hd), lookup_map, Hi. done.
Qed.

Lemma region_classify_row r :
  at_col "Region" (classify_row r) = region_of (clean_lipa r).
Proof.
  unfold classify_row.
  by rewrite !at_col_insert_ne, at_col_insert_eq by done.
Qed.

Lemma reason_classify_row r :
  at_col "Reason code desc." (classify_row r) = reason_of r.
Proof.
  unfold classify_row.
  by rewrite !at_col_insert_ne, at_col_insert_eq by done.
Qed.

Lemma ext_id_classify_row r :
  at_col "LIPA EX33 FZ / ExtDlvID" (classify_row r) = ext_id_of r.
Proof. unfold classify_row. by rewrite at_col_insert_eq. Qed.

Lemma day_classify_row r :
  at_col "Day" (classify_row r) = age_of to_datetime today r.
Proof.
  unfold classify_row.
  by rewrite !at_col_insert_ne, at_col_insert_eq by done.
Qed.

Lemma created_classify_row r :
  at_col "LIPA Created On" (classify_row r) = created_of to_datetime r.
Proof.
  unfold classify_row.
  by rewrite !at_col_insert_ne, at_col_insert_eq by done.
Qed.

(** Columns that lines 55-67 do not write keep their cell. *)
Lemma passthrough_classify_row r c :
  c ∉ ["LIPA Created On"; "Today"; "Day"; "LIPA EX33 FZ / ExtDlvID";
       "Region"; "Reason code desc."] →
  classify_row r !! c = r !! c.
Proof.
  intros Hc. unfold classify_row.
  rewrite !lookup_insert_ne; [done|..]; intros E; apply Hc; rewrite <- E;
    set_solver.
Qed.

Lemma region_of_cases c :
  (region_of c = Str "USA" ∧ startswith "7" (py_str c) = true)
  ∨ (region_of c = Str "Germany" ∧ startswith "7" (py_str c) = false).
Proof. unfold region_of. destruct (startswith "7" (py_str c)); auto. Qed.

Lemma reason_of_blank r :
  isna (at_col "Reason code desc." r) = true
  ∨ at_col "Reason code desc." r = Str "" →
  reason_of r = Str "GSS classic".
Proof.
  unfold reason_of, fillna, replace. intros [-> | ->]; done.
Qed.

Lemma reason_of_notna r : notna (reason_of r) = true.
Proof.
  unfold reason_of, fillna, replace.
  destruct (at_col "Reason code desc." r) as [| | |s| |] eqn:E; simpl;
    try done.
  case_bool_decide; done.
Qed.

End ClassifyFacts.

(** ** Region and sentinel (lines 59-67) *)

(** C5. For every row of the input, the region written by the classifier is
    "USA" exactly when the external id as it stands after [clean_lipa], before
    the sentinel overwrite, starts with "7" once coerced to text, and it is
    "Germany" otherwise.  A missing external id is coerced to the text "None"
    (unless the status sentinel replaced it), so such a row is "Germany". *)
Theorem region_iff_ext_id_starts_with_7
    (to_datetime : string → option Timestamp) (today : Timestamp)
    (df df' : DataFrame) (i : nat) (r : Row) :
  classify to_datetime today df = inr df' →
  rows df !! i = Some r →
  ∃ r', rows df' !! i = Some r'
    ∧ (at_col "Region" r' = Str "USA"
       ↔ startswith "7" (py_str (clean_lipa r)) = true)
    ∧ (at_col "Region" r' = Str "Germany"
       ↔ startswith "7" (py_str (clean_lipa r)) = false)
    ∧ (isna (row_get r "LIPA EX33 FZ / ExtDlvID") = true →
       (py_str (clean_lipa r) = "None"
        ∨ py_str (clean_lipa r) = "GSS classic")
       ∧ at_col "Region" r' = Str "Germany").
Proof.
  intros Hd Hi. exists (classify_row to_datetime today r).
  split; [by eapply classify_lookup|].
  rewrite region_classify_row.
  destruct (region_of_cases (clean_lipa r)) as [[-> Hs] | [-> Hs]];
    rewrite Hs; (split; [done|]); (split; [done|]); intros Hna.
  - exfalso. revert Hs. unfold clean_lipa, notna. rewrite Hna. simpl.
    by destruct (_ && _).
  - split; [|done]. unfold clean_lipa, notna. rewrite Hna. simpl.
    destruct (_ && _); auto.
Qed.

Lemma region_iff_ext_id_starts_with_7_witness :
  ∃ r', rows sample_classified !! 0%nat = Some r'
    ∧ (at_col "Region" r' = Str "USA" ↔ true = true)
    ∧ (at_col "Region" r' = Str "Germany" ↔ true = false)
    ∧ (false = true →
       ("7001234" = "None" ∨ "7001234" = "GSS classic")
       ∧ at_col "Region" r' = Str "Germany").
Proof.
  apply (region_iff_ext_id_starts_with_7 iso_date sample_today
           sample_workbook sample_classified 0
           (sample_row (Str "D1") (Str "2026-10-20") (Str "In process")
              (Str "7001234") (Str "Missing part") (Str "Open")
              (Str "A96012345")));
    vm_compute; reflexivity.
Defined.

(** C10. A row whose 'Combined Status' text contains "GSS Classic" is
    classified "Germany" whatever its external-delivery-id field holds:
    [clean_lipa] replaces the id by the sentinel "GSS classic" before the
    region is derived, and the sentinel does not start with "7". *)
Theorem gss_classic_status_is_germany
    (to_datetime : string → option Timestamp) (today : Timestamp)
    (df df' : DataFrame) (i : nat) (r : Row) (status : string) :
  classify to_datetime today df = inr df' →
  rows df !! i = Some r →
  r !! "Combined Status" = Some (Str status) →
  contains "GSS Classic" status = true →
  clean_lipa r = Str "GSS classic"
  ∧ startswith "7" "GSS classic" = false
  ∧ ∃ r', rows df' !! i = Some r' ∧ at_col "Region" r' = Str "Germany".
Proof.
  intros Hd Hi Hs Hc.
  assert (clean_lipa r = Str "GSS classic") as Hclean.
  { unfold clean_lipa, row_get. rewrite Hs. simpl. by rewrite Hc. }
  split; [done|]. split; [done|].
  exists (classify_row to_datetime today r).
  split; [by eapply classify_lookup|].
  by rewrite region_classify_row, Hclean.
Qed.

Lemma gss_classic_status_is_germany_witness :
  clean_lipa
    (sample_row (Str "D2") (Str "2025-11-20") (Str "Plant GSS Classic line")
       (Str "7009999") NaN (Str "Open") (Str "B12")) = Str "GSS classic"
  ∧ startswith "7" "GSS classic" = false
  ∧ ∃ r', rows sample_classified !! 1%nat = Some r'
          ∧ at_col "Region" r' = Str "Germany".
Proof.
  apply (gss_classic_status_is_germany iso_date sample_today
           sample_workbook sample_classified 1 _ "Plant GSS Classic line");
    vm_compute; reflexivity.
Defined.

(** C4. A row whose source reason is missing or empty gets the reason
    "GSS classic"; every classified row whose reason is "GSS classic" has the
    external id "" (a text, not a missing value); the region of the row is
    the one derived from the id as [clean_lipa] left it, before that
    overwrite.  So a row whose status contains "GSS Classic" and whose reason
    is blank ends with reason "GSS classic" and external id "". *)
Theorem blank_reason_sentinel_blanks_ext_id
    (to_datetime : string → option Timestamp) (today : Timestamp)
    (df df' : DataFrame) (i : nat) (r : Row) :
  classify to_datetime today df = inr df' →
  rows df !! i = Some r →
  ∃ r', rows df' !! i = Some r'
    ∧ (isna (at_col "Reason code desc." r) = true
       ∨ at_col "Reason code desc." r = Str "" →
       at_col "Reason code desc." r' = Str "GSS classic")
    ∧ (at_col "Reason code desc." r' = Str "GSS classic" →
       at_col "LIPA EX33 FZ / ExtDlvID" r' = Str ""
       ∧ isna (at_col "LIPA EX33 FZ / ExtDlvID" r') = false)
    ∧ at_col "Region" r' = region_of (clean_lipa r)
    ∧ (∀ status,
         r !! "Combined Status" = Some (Str status) →
         contains "GSS Classic" status = true →
         isna (at_col "Reason code desc." r) = true
         ∨ at_col "Reason code desc." r = Str "" →
         at_col "Reason code desc." r' = Str "GSS classic"
         ∧ at_col "LIPA EX33 FZ / ExtDlvID" r' = Str "").
Proof.
  intros Hd Hi. exists (classify_row to_datetime today r).
  split; [by eapply classify_lookup|].
  rewrite reason_classify_row, ext_id_classify_row, region_classify_row.
  assert (reason_of r = Str "GSS classic" → ext_id_of r = Str "") as Hblank.
  { intros E. unfold ext_id_of. by rewrite E. }
  split; [apply reason_of_blank|].
  split; [intros E; by rewrite (Hblank E)|].
  split; [done|].
  intros status _ _ Hr. apply reason_of_blank in Hr. auto.
Qed.

Lemma blank_reason_sentinel_blanks_ext_id_witness :
  ∃ r', rows sample_classified !! 6%nat = Some r'
    ∧ (false = true ∨ Str "" = Str "" →
       at_col "Reason code desc." r' = Str "GSS classic")
    ∧ (at_col "Reason code desc." r' = Str "GSS classic" →
       at_col "LIPA EX33 FZ / ExtDlvID" r' = Str ""
       ∧ isna (at_col "LIPA EX33 FZ / ExtDlvID" r') = false)
    ∧ at_col "Region" r' = Str "USA"
    ∧ (∀ status,
         Some (Str "In process") = Some (Str status) →
         contains "GSS Classic" status = true →
         false = true ∨ Str "" = Str "" →
         at_col "Reason code desc." r' = Str "GSS classic"
         ∧ at_col "LIPA EX33 FZ / ExtDlvID" r' = Str "").
Proof.
  apply (blank_reason_sentinel_blanks_ext_id iso_date sample_today
           sample_workbook sample_classified 6
           (sample_row (Str "D7") (Str "2026-09-01") (Str "In process")
              (Str "7100") (Str "") (Str "Open") (Str "A96")));
    vm_compute; reflexivity.
Defined.

(** ** Projection, sorting and numbering (lines 70-84) *)

Lemma filter_nil_Forall {A} (p : A → bool) (l : list A) :
  List.filter p l = [] ↔ Forall (λ x, p x = false) l.
Proof.
  induction l as [|x l IH]; simpl; [by split; constructor|].
  destruct (p x) eqn:E; split; intros Hf; try done.
  - apply Forall_cons in Hf as [? _]. congruence.
  - constructor; [done|]. by apply IH.
  - apply Forall_cons in Hf as [_ ?]. by apply IH.
Qed.

Lemma existsb_false_filter {A} (p : A → bool) (l : list A) :
  existsb p l = false → List.filter p l = [].
Proof.
  induction l as [|x l IH]; simpl; [done|].
  destruct (p x); simpl; [done|]. exact IH.
Qed.

Lemma project_row_cons c cols (r : Row) :
  project_row (c :: cols) r
  = match r !! c with
    | Some v => <[c := v]> (project_row cols r)
    | None => project_row cols r
    end.
Proof. unfold project_row. simpl. by destruct (r !! c). Qed.

Lemma project_row_lookup cols (r : Row) c :
  project_row cols r !! c = if bool_decide (c ∈ cols) then r !! c else None.
Proof.
  induction cols as [|c0 cols IH].
  - unfold project_row. simpl. by rewrite lookup_empty.
  - rewrite project_row_cons.
    destruct (decide (c = c0)) as [->|Hne].
    + rewrite bool_decide_eq_true_2 by set_solver.
      destruct (r !! c0) eqn:E; [by rewrite lookup_insert_eq|].
      rewrite IH. by case_bool_decide.
    + assert (bool_decide (c ∈ c0 :: cols) = bool_decide (c ∈ cols)) as ->.
      { apply bool_decide_ext. rewrite elem_of_cons. tauto. }
      destruct (r !! c0); [rewrite lookup_insert_ne by done|]; apply IH.
Qed.

Lemma at_col_project cols (r : Row) c :
  c ∈ cols → at_col c (project_row cols r) = at_col c r.
Proof.
  intros Hc. unfold at_col.
  by rewrite project_row_lookup, bool_decide_eq_true_2.
Qed.

Lemma getitems_inr cols df d :
  getitems cols df = inr d →
  d = {| columns := cols; rows := map (project_row cols) (rows df) |}
  ∧ Forall (λ c, has_column c df = true) cols.
Proof.
  unfold getitems.
  destruct (List.filter _ cols) eqn:E; [|done].
  intros [= <-]. split; [done|].
  apply filter_nil_Forall in E. eapply Forall_impl; [exact E|].
  simpl. intros c Hc. by apply negb_false_iff.
Qed.



Lemma strip_numbered (l : list Row) :
  Forall (λ r, r !! "Sr No." = None) l →
  map strip_sr_no (imap (λ i r, <["Sr No." := Num (Z.of_nat i + 1)]> r) l) = l.
Proof.
  intros Hl.
  change (map strip_sr_no) with (fmap (M:=list) strip_sr_no).
  rewrite fmap_imap. rewrite <- (list_fmap_id l) at 2.
  rewrite <- imap_const. apply imap_ext. intros i r Hi. simpl.
  unfold strip_sr_no. apply delete_insert_id.
  rewrite Forall_forall in Hl. apply Hl.
  by eapply list_elem_of_lookup_2.
Qed.

Section Partition.

Context {sorter : SortValues}.

Lemma prepare_df_inr region_df out :
  prepare_df region_df = inr out →
  Forall (λ c, has_column c region_df = true) required_cols
  ∧ columns out = "Sr No." :: required_cols
  ∧ rows out
    = imap (λ i r, <["Sr No." := Num (Z.of_nat i + 1)]> r)
        (sort_values_desc day_key
           (map (project_row required_cols) (rows region_df))).
Proof.
  unfold prepare_df. destruct (getitems _ _) as [e|d] eqn:E; [done|].
  apply getitems_inr in E as [-> Hcols]. simpl. by intros [= <-].
Qed.

(** What a successful [partition] returns: the rows of the region,
    projected, in some decreasing arrangement, numbered from 1. *)
Lemma partition_inr name df p :
  partition name df = inr p →
  ∃ sorted,
    Permutation (map (project_row required_cols) (rows (region_rows name df)))
                sorted
    ∧ decreasing day_key sorted
    ∧ rows p = imap (λ i r, <["Sr No." := Num (Z.of_nat i + 1)]> r) sorted
    ∧ (region_present name df = true → columns p = "Sr No." :: required_cols)
    ∧ (region_present name df = false → p = empty_frame).
Proof.
  unfold partition. destruct (region_present name df) eqn:E.
  - intros Hp. apply prepare_df_inr in Hp as (_ & Hcols & Hrows).
    eexists. split; [apply sort_values_perm|].
    split; [apply sort_values_decreasing|]. by repeat split.
  - intros [= <-]. exists []. unfold region_present in E.
    apply existsb_false_filter in E. simpl. rewrite E. simpl.
    repeat split; try done. constructor.
Qed.

End Partition.

Lemma filter_split_perm {A} (p q : A → bool) (l : list A) :
  Forall (λ x, q x = negb (p x)) l →
  Permutation l (List.filter p l ++ List.filter q l).
Proof.
  induction 1 as [|x l Hx _ IH]; simpl; [done|].
  rewrite Hx. destruct (p x); simpl.
  - by constructor.
  - by apply Permutation_cons_app.
Qed.

Lemma project_has_no_sr_no (r : Row) :
  project_row required_cols r !! "Sr No." = None.
Proof. by rewrite project_row_lookup. Qed.

Section Outputs.

Context {sorter : SortValues}.
Context (to_datetime : string → option Timestamp) (today : Timestamp).

Local Abbreviation classify := (classify to_datetime today).
Local Abbreviation classify_row := (classify_row to_datetime today).

Lemma process_data_true f usa_df germany_df :
  process_data to_datetime today f = (true, Frame usa_df, Frame germany_df) →
  ∃ df df', f = Workbook df
    ∧ classify df = inr df'
    ∧ partition "USA" (retain df') = inr usa_df
    ∧ partition "Germany" (retain df') = inr germany_df.
Proof.
  unfold process_data, process_frames.
  destruct f as [msg|df]; simpl; [done|].
  destruct (classify df) as [e|df'] eqn:Hc; simpl; [done|].
  destruct (partition "USA" (retain df')) as [e|u] eqn:Hu; simpl; [done|].
  destruct (partition "Germany" (retain df')) as [e|g] eqn:Hg; simpl;
    [done|].
  intros [= <- <-]. by exists df, df'.
Qed.

(** Every row of a partition is a retained row of that region, projected
    and numbered. *)
Lemma partition_row name df p r :
  partition name df = inr p → r ∈ rows p →
  ∃ i r0, r0 ∈ rows df
    ∧ at_col "Region" r0 = Str name
    ∧ r = <["Sr No." := Num (Z.of_nat i + 1)]> (project_row required_cols r0).
Proof.
  intros Hp Hr.
  destruct (partition_inr _ _ _ Hp) as (sorted & Hperm & _ & Hrows & _).
  rewrite Hrows in Hr. apply elem_of_lookup_imap_1 in Hr as (i & y & -> & Hy).
  apply list_elem_of_lookup_2 in Hy. rewrite <- Hperm in Hy.
  apply list_elem_of_In, in_map_iff in Hy as (r0 & <- & Hr0).
  apply list_elem_of_In, elem_of_filter in Hr0 as [Hr0 Hreg].
  exists i, r0. repeat split; try done.
  unfold eq_cell in Hreg. by apply bool_decide_eq_true in Hreg.
Qed.

Lemma retained_row df r :
  r ∈ rows (retain df) ↔ r ∈ rows df ∧ ∃ n, at_col "Day" r = Num n ∧ 10 < n.
Proof.
  unfold retain, where_; simpl. rewrite elem_of_filter.
  split; intros [Hr Hd]; (split; [done|]).
  - destruct (at_col "Day" r) as [| | | |n|]; simpl in Hd; try done.
    exists n. split; [done|]. by apply Z.ltb_lt.
  - destruct Hd as (n & -> & Hn). simpl. by apply Z.ltb_lt.
Qed.

Lemma classified_region df df' r :
  classify df = inr df' → r ∈ rows df' →
  at_col "Region" r = Str "USA" ∨ at_col "Region" r = Str "Germany".
Proof.
  intros Hc Hr. rewrite (classify_inr _ _ _ _ Hc) in Hr.
  apply list_elem_of_In, in_map_iff in Hr as (r0 & <- & _).
  rewrite region_classify_row.
  destruct (region_of_cases (clean_lipa r0)) as [[-> _]|[-> _]]; auto.
Qed.

End Outputs.

(** ** The aging filter (line 68) *)

(** C6. On every input the classifier accepts, a classified record is
    retained exactly when its age in days is a number above 10.  A record of
    age 10 is dropped, and so is a record whose creation date is missing or
    does not parse: its date is NaT and its age NaN.  Every row of the two
    partitions returned by [process_data] has an age above 10. *)
Theorem retained_iff_older_than_10 {sorter : SortValues}
    (to_datetime : string → option Timestamp) (today : Timestamp)
    (f : UploadedFile) (usa_df germany_df : DataFrame) :
  process_data to_datetime today f = (true, Frame usa_df, Frame germany_df) →
  ∃ df df', f = Workbook df
    ∧ classify to_datetime today df = inr df'
    ∧ (∀ r', r' ∈ rows (retain df')
             ↔ r' ∈ rows df' ∧ ∃ n, at_col "Day" r' = Num n ∧ 10 < n)
    ∧ (∀ r', at_col "Day" r' = Num 10 → r' ∉ rows (retain df'))
    ∧ (∀ i r,
         rows df !! i = Some r →
         isna (at_col "LIPA Created On" r) = true
         ∨ (∃ s, at_col "LIPA Created On" r = Str s ∧ to_datetime s = None) →
         ∃ r', rows df' !! i = Some r'
           ∧ at_col "LIPA Created On" r' = NaT
           ∧ at_col "Day" r' = NaN
           ∧ r' ∉ rows (retain df'))
    ∧ (∀ r, r ∈ (rows usa_df ++ rows germany_df)%list →
            ∃ n, at_col "Day" r = Num n ∧ 10 < n).
Proof.
  intros Hp. destruct (process_data_true _ _ _ _ _ Hp) as
    (df & df' & -> & Hc & Hu & Hg).
  exists df, df'. split; [done|]. split; [done|].
  split; [apply retained_row|].
  split.
  { intros r' Hd [_ (n & Hn & Hlt)]%retained_row. rewrite Hd in Hn.
    simplify_eq. lia. }
  split.
  { intros i r Hi Hbad. exists (classify_row to_datetime today r).
    split; [by eapply classify_lookup|].
    assert (created_of to_datetime r = NaT) as Hnat.
    { unfold created_of, coerce_datetime.
      destruct Hbad as [Hna | (s & -> & ->)]; [|done].
      by destruct (at_col "LIPA Created On" r). }
    rewrite created_classify_row, day_classify_row. unfold age_of.
    rewrite Hnat. repeat split; try done.
    intros [_ (n & Hn & _)]%retained_row.
    rewrite day_classify_row in Hn. unfold age_of in Hn.
    by rewrite Hnat in Hn. }
  intros r [Hr|Hr]%elem_of_app.
  - destruct (partition_row _ _ _ _ Hu Hr) as (i & r0 & Hr0 & _ & ->).
    apply retained_row in Hr0 as [_ (n & Hn & Hlt)]. exists n.
    rewrite at_col_insert_ne by done.
    rewrite at_col_project by (unfold required_cols; set_solver). done.
  - destruct (partition_row _ _ _ _ Hg Hr) as (i & r0 & Hr0 & _ & ->).
    apply retained_row in Hr0 as [_ (n & Hn & Hlt)]. exists n.
    rewrite at_col_insert_ne by done.
    rewrite at_col_project by (unfold required_cols; set_solver). done.
Qed.

Lemma retained_iff_older_than_10_witness :
  (∀ r', at_col "Day" r' = Num 10 → r' ∉ rows (retain sample_classified))
  ∧ (∀ r, r ∈ (rows sample_usa ++ rows sample_germany)%list →
          ∃ n, at_col "Day" r = Num n ∧ 10 < n).
Proof.
  assert (process_data (sorter:=stable_sort) iso_date sample_today
            (Workbook sample_workbook)
          = (true, Frame sample_usa, Frame sample_germany)) as Hrun
    by (vm_compute; reflexivity).
  destruct (retained_iff_older_than_10 (sorter:=stable_sort) iso_date
              sample_today (Workbook sample_workbook) sample_usa
              sample_germany Hrun)
    as (df & df' & Hf & Hc & _ & H10 & _ & Hall).
  injection Hf as <-.
  assert (df' = sample_classified) as ->.
  { unfold sample_classified. by rewrite Hc. }
  by split.
Defined.

(** ** The two partitions (lines 65-84) *)

Section Counts.

Context {sorter : SortValues}.

Lemma partition_perm name df p :
  partition name df = inr p →
  Permutation (map (project_row required_cols) (rows (region_rows name df)))
              (map strip_sr_no (rows p)).
Proof.
  intros Hp.
  destruct (partition_inr _ _ _ Hp) as (sorted & Hperm & _ & Hrows & _).
  rewrite Hrows, strip_numbered; [done|].
  rewrite <- Hperm. apply Forall_forall. intros r Hr.
  apply list_elem_of_In, in_map_iff in Hr as (r0 & <- & _).
  apply project_has_no_sr_no.
Qed.

Lemma partition_length name df p :
  partition name df = inr p →
  length (rows p) = length (rows (region_rows name df)).
Proof.
  intros Hp. apply partition_perm, Permutation_length in Hp.
  rewrite !length_map in Hp. done.
Qed.

End Counts.

Lemma region_rows_split df :
  Forall (λ r, at_col "Region" r = Str "USA"
               ∨ at_col "Region" r = Str "Germany") (rows df) →
  Permutation (rows df)
    (rows (region_rows "USA" df) ++ rows (region_rows "Germany" df)).
Proof.
  intros Hall. apply filter_split_perm.
  eapply Forall_impl; [exact Hall|]. simpl.
  intros r [-> | ->]; done.
Qed.

(** C8. On every input [process_data] accepts, the number of rows of the
    USA partition plus that of the Germany partition is the number of
    retained records.  Each retained record has exactly one of the two
    regions, and the rows of the two partitions, without their sequence
    number, are the projected retained records, each exactly once. *)
Theorem partition_counts_sum_to_retained {sorter : SortValues}
    (to_datetime : string → option Timestamp) (today : Timestamp)
    (f : UploadedFile) (usa_df germany_df : DataFrame) :
  process_data to_datetime today f = (true, Frame usa_df, Frame germany_df) →
  ∃ df df', f = Workbook df
    ∧ classify to_datetime today df = inr df'
    ∧ len usa_df + len germany_df = len (retain df')
    ∧ Permutation
        (map (project_row required_cols) (rows (retain df')))
        (map strip_sr_no (rows usa_df ++ rows germany_df)%list)
    ∧ (∀ r, r ∈ rows (retain df') →
         (r ∈ rows (region_rows "USA" (retain df'))
          ∧ r ∉ rows (region_rows "Germany" (retain df')))
         ∨ (r ∈ rows (region_rows "Germany" (retain df'))
            ∧ r ∉ rows (region_rows "USA" (retain df')))).
Proof.
  intros Hp. destruct (process_data_true _ _ _ _ _ Hp) as
    (df & df' & -> & Hc & Hu & Hg).
  exists df, df'. split; [done|]. split; [done|].
  assert (Forall (λ r, at_col "Region" r = Str "USA"
                       ∨ at_col "Region" r = Str "Germany")
                 (rows (retain df'))) as Hreg.
  { apply Forall_forall. intros r [Hr _]%retained_row.
    by eapply classified_region. }
  pose proof (region_rows_split _ Hreg) as Hsplit.
  split; [|split].
  - unfold len. rewrite (partition_length _ _ _ Hu), (partition_length _ _ _ Hg).
    rewrite (Permutation_length Hsplit), length_app. lia.
  - rewrite map_app, <- (partition_perm _ _ _ Hu), <- (partition_perm _ _ _ Hg).
    rewrite <- map_app. by apply Permutation_map.
  - intros r Hr. rewrite Forall_forall in Hreg.
    generalize dependent (retain df'). intros R _ _ Hreg _ Hr.
    unfold region_rows, where_, eq_cell; simpl. rewrite !elem_of_filter.
    destruct (Hreg r Hr) as [E|E]; rewrite E; [left|right];
      (split; [by split|]); by intros [_ ?].
Qed.

Lemma partition_counts_sum_to_retained_witness :
  len sample_usa + len sample_germany = len (retain sample_classified)
  ∧ len (retain sample_classified) = 5.
Proof.
  assert (process_data (sorter:=stable_sort) iso_date sample_today
            (Workbook sample_workbook)
          = (true, Frame sample_usa, Frame sample_germany)) as Hrun
    by (vm_compute; reflexivity).
  destruct (partition_counts_sum_to_retained (sorter:=stable_sort) iso_date
              sample_today (Workbook sample_workbook) sample_usa
              sample_germany Hrun)
    as (df & df' & Hf & Hc & Hlen & _).
  injection Hf as <-.
  assert (df' = sample_classified) as ->.
  { unfold sample_classified. by rewrite Hc. }
  split; [exact Hlen|]. vm_compute. reflexivity.
Defined.

(** ** Order and sequence numbers (lines 77-81) *)





(** ** Failure and success of the whole run (lines 48-88) *)

Section Run.

Context {sorter : SortValues}.
Context (to_datetime : string → option Timestamp) (today : Timestamp).




End Run.



(** ** The age buckets ([create_aging_distribution]) *)




















Section PartitionRows.

Context {sorter : SortValues}.
Context (to_datetime : string → option Timestamp) (today : Timestamp).


Lemma partition_empty_or_columns name df p :
  partition name df = inr p →
  p = empty_frame ∨ columns p = "Sr No." :: required_cols.
Proof.
  intros Hp. destruct (partition_inr _ _ _ Hp) as (s & _ & _ & _ & Ht & Hf).
  destruct (region_present name df); auto.
Qed.

End PartitionRows.



(** ** The headline counts ([create_kpi_cards]) *)

Lemma count_where_filter p q (l : list Row) :
  count_where p (List.filter q l) = count_where (λ r, q r && p r) l.
Proof.
  unfold count_where. f_equal. f_equal.
  induction l as [|r l IH]; simpl; [done|].
  destruct (q r); simpl; [destruct (p r)|]; by rewrite IH.
Qed.

(** What the code counts: the year of creation plays no part. *)
Lemma closed_this_month_by_month_only now df :
  empty df = false →
  closed_this_month <$> (create_kpi_cards now df).1
  = Some (count_where
            (λ r, bool_decide (dt_field month (at_col "LIPA Created On" r)
                               = Some (month now))
                  && contains_closed_completed
                       (py_str (at_col "Process status" r)))
            (rows df)).
Proof.
  intros He. unfold create_kpi_cards. rewrite He. simpl.
  by rewrite count_where_filter.
Qed.

(** C1 (not met by the code). In the sample run of 2026-11-04 the
    USA partition holds one closed record, created on 2025-11-20: same month,
    previous year.  The code counts it as closed this month; the count with
    the year test is 0. *)
Theorem closed_this_month_counts_other_years :
  map (λ r, (at_col "LIPA Created On" r, at_col "Process status" r))
      (rows sample_usa)
  = [ (Stamp {| year := 2025; month := 11; day := 20; seconds := 0 |},
       Str "Closed");
      (Stamp {| year := 2026; month := 9; day := 1; seconds := 0 |},
       Str "Open");
      (Stamp {| year := 2026; month := 10; day := 20; seconds := 0 |},
       Str "Open") ]
  ∧ closed_this_month <$> (create_kpi_cards sample_today sample_usa).1
    = Some 1
  ∧ closed_this_month_spec sample_today sample_usa = 0.
Proof. repeat split; vm_compute; reflexivity. Qed.

(** ** The views and the caller's frame *)

Lemma empty_assign c f df : empty df = false → empty (assign c f df) = false.
Proof.
  unfold empty, assign; simpl.
  destruct (columns df) as [|c0 cs]; [done|].
  destruct (has_column c df); simpl; by destruct (rows df).
Qed.

Section ViewsFrame.

Context {sorter : SortValues} (now : Timestamp) (observed : bool).

Lemma create_kpi_cards_frame df : (create_kpi_cards now df).2 = df.
Proof. unfold create_kpi_cards. by destruct (empty df). Qed.

Lemma create_aging_trend_frame df : (create_aging_trend df).2 = df.
Proof. unfold create_aging_trend. by destruct (empty df). Qed.

Lemma create_reason_distribution_frame df :
  (create_reason_distribution df).2 = df.
Proof. unfold create_reason_distribution. by destruct (empty df). Qed.

Lemma create_status_donut_frame df : (create_status_donut df).2 = df.
Proof. unfold create_status_donut. by destruct (empty df). Qed.

Lemma create_top_aging_table_frame df : (create_top_aging_table df).2 = df.
Proof. unfold create_top_aging_table. by destruct (empty df). Qed.

Lemma create_aging_distribution_frame df :
  empty df = false →
  (create_aging_distribution observed df).2
  = assign "Age Bucket" (λ r, age_bucket (at_col "Day" r)) df.
Proof. intros He. unfold create_aging_distribution. by rewrite He. Qed.

Lemma create_heatmap_frame df :
  empty df = false →
  (create_heatmap df).2
  = assign "Model"
      (λ r, Str (str_slice_to 4 (py_str (at_col "Material number" r)))) df.
Proof. intros He. unfold create_heatmap. by rewrite He. Qed.

Lemma render_region_raw_data df :
  empty df = false →
  ∃ page, render_region now observed df = Some page
    ∧ raw_data page
      = assign "Model"
          (λ r, Str (str_slice_to 4 (py_str (at_col "Material number" r))))
          (assign "Age Bucket" (λ r, age_bucket (at_col "Day" r)) df).
Proof.
  intros He. unfold render_region. rewrite He.
  destruct (create_kpi_cards now df) as [v1 d1] eqn:E1.
  apply (f_equal snd) in E1. rewrite create_kpi_cards_frame in E1.
  simpl in E1. subst d1.
  destruct (create_aging_trend df) as [v2 d2] eqn:E2.
  apply (f_equal snd) in E2. rewrite create_aging_trend_frame in E2.
  simpl in E2. subst d2.
  destruct (create_aging_distribution observed df) as [v3 d3] eqn:E3.
  apply (f_equal snd) in E3.
  rewrite create_aging_distribution_frame in E3 by done.
  simpl in E3. subst d3.
  set (d := assign "Age Bucket" _ df).
  assert (empty d = false) as Hd by (unfold d; by apply empty_assign).
  destruct (create_reason_distribution d) as [v4 d4] eqn:E4.
  apply (f_equal snd) in E4. rewrite create_reason_distribution_frame in E4.
  simpl in E4. subst d4.
  destruct (create_status_donut d) as [v5 d5] eqn:E5.
  apply (f_equal snd) in E5. rewrite create_status_donut_frame in E5.
  simpl in E5. subst d5.
  destruct (create_top_aging_table d) as [v6 d6] eqn:E6.
  apply (f_equal snd) in E6. rewrite create_top_aging_table_frame in E6.
  simpl in E6. subst d6.
  destruct (create_heatmap d) as [v7 d7] eqn:E7.
  apply (f_equal snd) in E7. rewrite create_heatmap_frame in E7 by done.
  simpl in E7. subst d7.
  eexists. split; [reflexivity|]. done.
Qed.

End ViewsFrame.

(** C2 (not met by the code). For every non-empty partition
    returned by [process_data], the frame that reaches the raw-data table and
    the download link after the seven views is the partition with two more
    columns, 'Age Bucket' and 'Model', written by [create_aging_distribution]
    and [create_heatmap]; [create_aging_trend], which derives 'Week' on a
    copy, leaves the partition as it was. *)
Theorem views_write_into_partition {sorter : SortValues}
    (to_datetime : string → option Timestamp) (today now : Timestamp)
    (observed : bool) (f : UploadedFile) (usa_df germany_df : DataFrame) :
  process_data to_datetime today f = (true, Frame usa_df, Frame germany_df) →
  ∀ p, p = usa_df ∨ p = germany_df → empty p = false →
    (create_aging_trend p).2 = p
    ∧ columns (create_aging_distribution observed p).2
      = (columns p ++ ["Age Bucket"])%list
    ∧ columns (create_heatmap p).2 = (columns p ++ ["Model"])%list
    ∧ ∃ page, render_region now observed p = Some page
        ∧ columns (raw_data page)
          = (columns p ++ ["Age Bucket"; "Model"])%list
        ∧ raw_data page ≠ p.
Proof.
  intros Hp p Hwhich He.
  destruct (process_data_true _ _ _ _ _ Hp) as (df & df' & -> & Hc & Hu & Hg).
  assert (columns p = "Sr No." :: required_cols) as Hcols.
  { destruct Hwhich as [-> | ->];
      [destruct (partition_empty_or_columns _ _ _ Hu) as [E|E]
      |destruct (partition_empty_or_columns _ _ _ Hg) as [E|E]];
      try done; by rewrite E in He. }
  split; [apply create_aging_trend_frame|].
  rewrite create_aging_distribution_frame, create_heatmap_frame by done.
  split; [|split].
  - unfold assign, has_column; simpl. by rewrite Hcols.
  - unfold assign, has_column; simpl. by rewrite Hcols.
  - destruct (render_region_raw_data now observed p He) as (page & Hr & Hraw).
    exists page. split; [done|].
    assert (columns (raw_data page)
            = (columns p ++ ["Age Bucket"; "Model"])%list) as Hnew.
    { rewrite Hraw. unfold assign, has_column; simpl. by rewrite Hcols. }
    split; [done|]. intros E. rewrite E in Hnew.
    apply (f_equal length) in Hnew. rewrite length_app in Hnew.
    simpl in Hnew. lia.
Qed.

Lemma views_write_into_partition_witness :
  ∃ page, render_region (sorter:=stable_sort) sample_today false sample_usa
          = Some page
    ∧ columns (raw_data page)
      = (columns sample_usa ++ ["Age Bucket"; "Model"])%list
    ∧ raw_data page ≠ sample_usa.
Proof.
  assert (process_data (sorter:=stable_sort) iso_date sample_today
            (Workbook sample_workbook)
          = (true, Frame sample_usa, Frame sample_germany)) as Hrun
    by (vm_compute; reflexivity).
  destruct (views_write_into_partition (sorter:=stable_sort) iso_date
              sample_today sample_today false (Workbook sample_workbook)
              sample_usa sample_germany Hrun sample_usa)
    as (_ & _ & _ & Hpage); [by left|vm_compute; reflexivity|].
  exact Hpage.
Defined.


(** * Further properties of the run and of the views *)

(** ** The outcome of [process_data], case by case *)

Lemma has_column_where c p df : has_column c (where_ p df) = has_column c df.
Proof. done. Qed.

Lemma existsb_elem {A} (p : A → bool) (l : list A) x :
  x ∈ l → p x = true → existsb p l = true.
Proof.
  intros Hx Hp. apply existsb_exists. exists x.
  split; [by apply list_elem_of_In|done].
Qed.

Section Outcome.

Context {sorter : SortValues}.
Context (to_datetime : string → option Timestamp) (today : Timestamp).




End Outcome.



(** ** Where the rows of a partition come from *)

Section Origin.

Context {sorter : SortValues}.
Context (to_datetime : string → option Timestamp) (today : Timestamp).

(** A row of a partition is the classification of a row of the workbook,
    projected and numbered. *)
Lemma partition_row_origin name df df' p r :
  classify to_datetime today df = inr df' →
  partition name (retain df') = inr p → r ∈ rows p →
  ∃ i r0, r0 ∈ rows df
    ∧ region_of (clean_lipa r0) = Str name
    ∧ gt 10 (age_of to_datetime today r0) = true
    ∧ r = <["Sr No." := Num (Z.of_nat i + 1)]>
            (project_row required_cols (classify_row to_datetime today r0)).
Proof.
  intros Hc Hp Hr.
  destruct (partition_row _ _ _ _ Hp Hr) as (i & r1 & Hr1 & Hreg & ->).
  apply elem_of_filter in Hr1 as [Hin Hgt].
  rewrite (classify_inr _ _ _ _ Hc) in Hin.
  apply list_elem_of_In, in_map_iff in Hin as (r0 & <- & Hr0).
  rewrite region_classify_row in Hreg. rewrite day_classify_row in Hgt.
  exists i, r0. split; [by apply list_elem_of_In|]. by repeat split.
Qed.

Lemma numbered_projected_lookup i (r : Row) c :
  c ∈ required_cols →
  (<["Sr No." := Num (Z.of_nat i + 1)]> (project_row required_cols r)) !! c
  = r !! c.
Proof.
  intros Hc. rewrite lookup_insert_ne.
  - by rewrite project_row_lookup, bool_decide_eq_true_2.
  - intros <-. apply (bool_decide_pack _) in Hc. by vm_compute in Hc.
Qed.

End Origin.

Lemma passthrough_required c :
  c ∈ passthrough_cols →
  c ∈ required_cols
  ∧ c ∉ ["LIPA Created On"; "Today"; "Day"; "LIPA EX33 FZ / ExtDlvID";
         "Region"; "Reason code desc."].
Proof.
  unfold passthrough_cols. intros Hc.
  repeat (apply elem_of_cons in Hc as [-> | Hc];
          [split; evaluate|]).
  by apply elem_of_nil in Hc.
Qed.

(** X2. Every row of a returned partition stems from a row of the workbook:
    its delivery number, process status, customer reference, material
    number, material description, quantity and model series are the cells
    of that row, untouched (present or absent alike), and its creation
    date, age, reason and external id are the values the classifier derives
    from that same row. *)
Theorem partition_rows_stem_from_workbook {sorter : SortValues}
    (to_datetime : string → option Timestamp) (today : Timestamp)
    (f : UploadedFile) (usa_df germany_df : DataFrame) :
  process_data to_datetime today f = (true, Frame usa_df, Frame germany_df) →
  ∃ df, f = Workbook df
    ∧ ∀ r, r ∈ (rows usa_df ++ rows germany_df)%list →
        ∃ r0, r0 ∈ rows df
          ∧ (∀ c, c ∈ passthrough_cols → r !! c = r0 !! c)
          ∧ r !! "LIPA Created On" = Some (created_of to_datetime r0)
          ∧ r !! "Day" = Some (age_of to_datetime today r0)
          ∧ r !! "Reason code desc." = Some (reason_of r0)
          ∧ r !! "LIPA EX33 FZ / ExtDlvID" = Some (ext_id_of r0).
Proof.
  intros Hp. destruct (process_data_true _ _ _ _ _ Hp) as
    (df & df' & -> & Hc & Hu & Hg).
  exists df. split; [done|]. intros r Hr.
  assert (∃ name p, partition name (retain df') = inr p ∧ r ∈ rows p)
    as (name & p & Hpart & Hin).
  { apply elem_of_app in Hr as [Hr|Hr]; eauto. }
  destruct (partition_row_origin _ _ _ _ _ _ _ Hc Hpart Hin)
    as (i & r0 & Hr0 & _ & _ & ->).
  exists r0. split; [done|].
  split.
  { intros c Hcin. destruct (passthrough_required c Hcin) as [Hreq Hnw].
    rewrite numbered_projected_lookup by done.
    by apply passthrough_classify_row. }
  rewrite !numbered_projected_lookup by evaluate.
  unfold classify_row.
  repeat (rewrite ?lookup_insert_eq, ?lookup_insert_ne by done).
  done.
Qed.

Lemma partition_rows_stem_from_workbook_witness :
  ∃ r r0, rows sample_usa !! 0%nat = Some r
    ∧ r0 ∈ rows sample_workbook
    ∧ (∀ c, c ∈ passthrough_cols → r !! c = r0 !! c)
    ∧ r !! "Reason code desc." = Some (reason_of r0).
Proof.
  assert (process_data (sorter:=stable_sort) iso_date sample_today
            (Workbook sample_workbook)
          = (true, Frame sample_usa, Frame sample_germany)) as Hrun
    by evaluate.
  destruct (partition_rows_stem_from_workbook (sorter:=stable_sort) iso_date
              sample_today (Workbook sample_workbook) sample_usa
              sample_germany Hrun) as (df & Hf & Hall).
  injection Hf as <-.
  assert (is_Some (rows sample_usa !! 0%nat)) as [r Hr] by evaluate.
  destruct (Hall r) as (r0 & Hr0 & Hpass & _ & _ & Hreason & _).
  { apply elem_of_app. left. by eapply list_elem_of_lookup_2. }
  exists r, r0. split; [exact Hr|]. split; [exact Hr0|].
  split; [exact Hpass|exact Hreason].
Defined.

(** ** The age in days *)

Lemma toordinal_date t : toordinal (date t) = toordinal t.
Proof. done. Qed.

Lemma timedelta_days_floor (today b : Timestamp) :
  0 <= seconds b < 86400 →
  timedelta_days (date today) b
  = toordinal today - toordinal b - (if seconds b =? 0 then 0 else 1).
Proof.
  intros Hs. unfold timedelta_days, total_seconds.
  rewrite toordinal_date. simpl seconds.
  destruct (seconds b =? 0) eqn:E.
  - apply Z.eqb_eq in E. rewrite E.
    replace (toordinal today * 86400 + 0 - (toordinal b * 86400 + 0))
      with ((toordinal today - toordinal b) * 86400) by lia.
    rewrite Z.div_mul by done. lia.
  - apply Z.eqb_neq in E. symmetry.
    apply (Z.div_unique _ _ _ (86400 - seconds b)); lia.
Qed.

(** X3. The age of a record whose creation text parses is the number of
    calendar days from the creation date to today's date, less one when the
    creation has a time of day after midnight; the time of day of the run
    plays no part.  The record is retained exactly when that number is above
    10. *)
Theorem age_counts_calendar_days
    (to_datetime : string → option Timestamp) (today : Timestamp)
    (df df' : DataFrame) (i : nat) (r : Row) (s : string) (b : Timestamp) :
  classify to_datetime today df = inr df' →
  rows df !! i = Some r →
  at_col "LIPA Created On" r = Str s →
  to_datetime s = Some b →
  0 <= seconds b < 86400 →
  ∃ r', rows df' !! i = Some r'
    ∧ at_col "Day" r'
      = Num (toordinal today - toordinal b
             - (if seconds b =? 0 then 0 else 1))
    ∧ (r' ∈ rows (retain df')
       ↔ 10 < toordinal today - toordinal b
              - (if seconds b =? 0 then 0 else 1)).
Proof.
  intros Hc Hi Hs Hb Hsec.
  exists (classify_row to_datetime today r).
  pose proof (classify_lookup _ _ _ _ _ _ Hc Hi) as Hi'.
  split; [done|].
  assert (at_col "Day" (classify_row to_datetime today r)
          = Num (toordinal today - toordinal b
                 - (if seconds b =? 0 then 0 else 1))) as Hday.
  { rewrite day_classify_row. unfold age_of, created_of, coerce_datetime.
    rewrite Hs, Hb. by rewrite timedelta_days_floor. }
  split; [done|]. rewrite retained_row, Hday. split.
  - intros [_ (n & [= <-] & Hn)]. done.
  - intros Hn. split; [by eapply list_elem_of_lookup_2|eauto].
Qed.

Lemma age_counts_calendar_days_witness :
  ∃ r', rows sample_classified !! 3%nat = Some r' ∧ at_col "Day" r' = Num 10.
Proof.
  pose (b := {| year := 2026; month := 10; day := 25; seconds := 0 |}).
  pose (r := sample_row (Str "D4") (Str "2026-10-25") NaN
               (Str "8123") (Str "Customs") (Str "Open") (Str "A96099999")).
  assert (classify iso_date sample_today sample_workbook
          = inr sample_classified) as Hc by evaluate.
  assert (rows sample_workbook !! 3%nat = Some r) as Hi by evaluate.
  assert (at_col "LIPA Created On" r = Str "2026-10-25") as Hs by evaluate.
  assert (iso_date "2026-10-25" = Some b) as Hb by evaluate.
  assert (0 <= seconds b < 86400) as Hsec by (simpl; lia).
  destruct (age_counts_calendar_days iso_date sample_today sample_workbook
              sample_classified 3 r "2026-10-25" b Hc Hi Hs Hb Hsec)
    as (r' & Hr' & Hday & _).
  exists r'. split; [exact Hr'|]. rewrite Hday. vm_compute. reflexivity.
Defined.

(** ** Reason and external id in the partitions *)

Lemma reason_of_not_blank r : reason_of r ≠ Str "".
Proof.
  unfold reason_of, fillna, replace.
  destruct (isna (at_col "Reason code desc." r)); [done|].
  by case_bool_decide.
Qed.

Lemma at_col_numbered_projected i (r : Row) c :
  c ∈ required_cols →
  at_col c (<["Sr No." := Num (Z.of_nat i + 1)]>
              (project_row required_cols r))
  = at_col c r.
Proof. intros Hc. unfold at_col. by rewrite numbered_projected_lookup. Qed.

(** X4. In the partitions a reason is never missing and never the empty
    text, and a record whose reason is "GSS classic" has the external id "".
    The external id of a USA row is either "" or starts with "7"; that of a
    Germany row never starts with "7". *)
Theorem partition_reason_and_ext_id {sorter : SortValues}
    (to_datetime : string → option Timestamp) (today : Timestamp)
    (f : UploadedFile) (usa_df germany_df : DataFrame) :
  process_data to_datetime today f = (true, Frame usa_df, Frame germany_df) →
  (∀ r, r ∈ (rows usa_df ++ rows germany_df)%list →
     notna (at_col "Reason code desc." r) = true
     ∧ at_col "Reason code desc." r ≠ Str ""
     ∧ (at_col "Reason code desc." r = Str "GSS classic" →
        at_col "LIPA EX33 FZ / ExtDlvID" r = Str ""))
  ∧ (∀ r, r ∈ rows usa_df →
       at_col "LIPA EX33 FZ / ExtDlvID" r = Str ""
       ∨ startswith "7" (py_str (at_col "LIPA EX33 FZ / ExtDlvID" r)) = true)
  ∧ (∀ r, r ∈ rows germany_df →
       startswith "7" (py_str (at_col "LIPA EX33 FZ / ExtDlvID" r)) = false).
Proof.
  intros Hp. destruct (process_data_true _ _ _ _ _ Hp) as
    (df & df' & -> & Hc & Hu & Hg).
  assert (∀ name p r, partition name (retain df') = inr p → r ∈ rows p →
            ∃ r0, region_of (clean_lipa r0) = Str name
              ∧ at_col "Reason code desc." r = reason_of r0
              ∧ at_col "LIPA EX33 FZ / ExtDlvID" r = ext_id_of r0) as Hrow.
  { intros name p r Hpart Hr.
    destruct (partition_row_origin _ _ _ _ _ _ _ Hc Hpart Hr)
      as (i & r0 & _ & Hreg & _ & ->).
    exists r0. split; [done|].
    rewrite !at_col_numbered_projected by evaluate.
    by rewrite reason_classify_row, ext_id_classify_row. }
  split; [|split].
  - intros r Hr.
    assert (∃ name p, partition name (retain df') = inr p ∧ r ∈ rows p)
      as (name & p & Hpart & Hin).
    { apply elem_of_app in Hr as [Hr|Hr]; eauto. }
    destruct (Hrow _ _ _ Hpart Hin) as (r0 & _ & -> & ->).
    split; [apply reason_of_notna|]. split; [apply reason_of_not_blank|].
    intros E. unfold ext_id_of. by rewrite E.
  - intros r Hr. destruct (Hrow _ _ _ Hu Hr) as (r0 & Hreg & _ & ->).
    unfold ext_id_of. destruct (eq_cell _ _); [by left|right].
    by destruct (region_of_cases (clean_lipa r0)) as [[_ ?]|[E _]];
      [|rewrite E in Hreg].
  - intros r Hr. destruct (Hrow _ _ _ Hg Hr) as (r0 & Hreg & _ & ->).
    unfold ext_id_of. destruct (eq_cell _ _); [done|].
    by destruct (region_of_cases (clean_lipa r0)) as [[E _]|[_ ?]];
      [rewrite E in Hreg|].
Qed.

Lemma partition_reason_and_ext_id_witness :
  (∀ r, r ∈ rows sample_usa →
     at_col "LIPA EX33 FZ / ExtDlvID" r = Str ""
     ∨ startswith "7" (py_str (at_col "LIPA EX33 FZ / ExtDlvID" r)) = true)
  ∧ map (at_col "LIPA EX33 FZ / ExtDlvID") (rows sample_usa)
    = [Str "7555"; Str ""; Str "7001234"].
Proof.
  assert (process_data (sorter:=stable_sort) iso_date sample_today
            (Workbook sample_workbook)
          = (true, Frame sample_usa, Frame sample_germany)) as Hrun
    by evaluate.
  destruct (partition_reason_and_ext_id (sorter:=stable_sort) iso_date
              sample_today (Workbook sample_workbook) sample_usa
              sample_germany Hrun) as (_ & Husa & _).
  split; [exact Husa|evaluate].
Defined.

(** ** The headline counts *)





(** ** Which region sections are shown *)

Lemma existsb_true_filter {A} (p : A → bool) (l : list A) :
  existsb p l = true → List.filter p l ≠ [].
Proof.
  intros [x [Hx Hp]]%existsb_exists E.
  assert (In x (List.filter p l)) as Hin by (by apply filter_In).
  by rewrite E in Hin.
Qed.

Lemma render_region_none {sorter : SortValues} now observed df :
  render_region now observed df = None ↔ empty df = true.
Proof.
  destruct (empty df) eqn:He.
  - unfold render_region. by rewrite He.
  - destruct (render_region_raw_data now observed df He) as (page & -> & _).
    done.
Qed.

Lemma partition_empty_iff {sorter : SortValues} name df p :
  partition name df = inr p →
  (empty p = true ↔ region_present name df = false).
Proof.
  intros Hp. pose proof (partition_length _ _ _ Hp) as Hlen.
  destruct (partition_inr _ _ _ Hp) as (s & _ & _ & _ & Ht & Hf).
  destruct (region_present name df) eqn:E.
  - split; [|done]. unfold empty. rewrite (Ht eq_refl).
    destruct (rows p) eqn:Er; [|done]. intros _.
    apply existsb_true_filter in E. unfold region_rows, where_ in Hlen.
    simpl in Hlen. by destruct (List.filter _ (rows df)).
  - by rewrite (Hf eq_refl).
Qed.

(** X6. The page shows the section of a region exactly when some retained
    record has that region: the frame of a region without retained record is
    empty and [render_region] draws nothing for it ("No ... data found"). *)
Theorem region_shown_iff_retained {sorter : SortValues}
    (to_datetime : string → option Timestamp) (today now : Timestamp)
    (observed : bool) (f : UploadedFile) (usa_df germany_df : DataFrame) :
  process_data to_datetime today f = (true, Frame usa_df, Frame germany_df) →
  ∃ df df', f = Workbook df
    ∧ classify to_datetime today df = inr df'
    ∧ (render_region now observed usa_df = None
       ↔ ∀ r, r ∈ rows (retain df') → at_col "Region" r ≠ Str "USA")
    ∧ (render_region now observed germany_df = None
       ↔ ∀ r, r ∈ rows (retain df') → at_col "Region" r ≠ Str "Germany").
Proof.
  intros Hp. destruct (process_data_true _ _ _ _ _ Hp) as
    (df & df' & -> & Hc & Hu & Hg).
  exists df, df'. split; [done|]. split; [done|].
  assert (∀ name p, partition name (retain df') = inr p →
            render_region now observed p = None
            ↔ ∀ r, r ∈ rows (retain df') → at_col "Region" r ≠ Str name)
    as Hall; [|by split; apply Hall].
  intros name p Hpart.
  rewrite render_region_none, (partition_empty_iff _ _ _ Hpart).
  unfold region_present. split.
  - intros Hno r Hr E.
    rewrite (existsb_elem _ _ r Hr) in Hno; [done|].
    by apply bool_decide_eq_true_2.
  - intros Hno. apply not_true_is_false.
    intros [r [Hr Hreg]]%existsb_exists.
    apply (Hno r); [by apply list_elem_of_In|].
    unfold eq_cell in Hreg. by apply bool_decide_eq_true in Hreg.
Qed.

Lemma region_shown_iff_retained_witness :
  ∃ df', classify iso_date sample_today tied_workbook = inr df'
    ∧ (render_region (sorter:=reversing_sort) sample_today false empty_frame
       = None
       ↔ ∀ r, r ∈ rows (retain df') → at_col "Region" r ≠ Str "Germany").
Proof.
  assert (process_data (sorter:=reversing_sort) iso_date sample_today
            (Workbook tied_workbook)
          = (true, Frame tied_usa, Frame empty_frame)) as Hrun by evaluate.
  destruct (region_shown_iff_retained (sorter:=reversing_sort) iso_date
              sample_today sample_today false (Workbook tied_workbook)
              tied_usa empty_frame Hrun)
    as (df & df' & Hf & Hc & _ & Hger).
  injection Hf as <-. exists df'. split; [exact Hc|exact Hger].
Defined.

(** ** What the views leave in the frame *)



(** ** The top-ten table *)






(** ** Grouped counts *)









(** ** [value_counts]: the reason and status charts *)




(** ** The model by reason matrix *)





(** ** The weekly trend *)


